(** * Validation of the monitoring/v1 credential and TLS value objects

    A shallow embedding of the validators of
    [pkg/apis/monitoring/v1/types.go] and of the resource-to-kind table
    used by [ObjectReference.GroupKind].

    Conventions of the embedding:
    - a Go pointer field [*T] is an [option T], [nil] being [None];
    - a Go [error] result is an [option error], [nil] being [None];
    - a Go struct comparison [x == (T{})] is equality with the zero value
      of the record (for a struct of pointers: every pointer is nil);
    - a method with a pointer receiver is a function of the struct pointed
      to; [SafeAuthorization.Validate], which tests its receiver for nil,
      takes an [option];
    - a call that may panic returns an [outcome]. *)

From stdpp Require Import base strings gmap.

Local Open Scope string_scope.

(** ** What the file imports

    [types.go] calls [strings.TrimSpace], [strings.ToLower] and
    [fmt.Sprintf] with the [%q] verb, and reads the constant
    [monitoring.GroupName]; none of them is defined in the file. They are
    the fields of a class, so that every statement below holds for
    whatever these imports are. *)
Class GoImports := {
  strings_TrimSpace : string → string;
  strings_ToLower : string → string;
  (** the text the [%q] verb of [fmt.Sprintf] prints for a string *)
  fmt_q : string → string;
  monitoring_GroupName : string;
}.

(** The double quote character, for the messages that contain one. *)
Definition dquote : string := String (Ascii.ascii_of_nat 34) EmptyString.

(** ** Errors

    Each validator returns a pointer to its own error struct, all of the
    shape [struct { err string }] with [Error()] returning the field. *)
Inductive error : Type :=
  | ProbeTargetsValidationError (err : string)
  | OAuth2ValidationError (err : string)
  | SecretOrConfigMapValidationError (err : string)
  | TLSConfigValidationError (err : string)
  | AuthorizationValidationError (err : string).

Definition Error (e : error) : string :=
  match e with
  | ProbeTargetsValidationError err
  | OAuth2ValidationError err
  | SecretOrConfigMapValidationError err
  | TLSConfigValidationError err
  | AuthorizationValidationError err => err
  end.

#[global] Instance error_eq_dec : EqDecision error.
Proof. solve_decision. Defined.

(** Early return: [s ;; k] is the statement [s] followed by the rest [k] of
    the function body; an error returned by [s] is the function's result,
    and [k] runs only when [s] falls through. *)
Definition seq_err (s k : option error) : option error :=
  match s with
  | Some err => Some err
  | None => k
  end.

(** [if cond { return e }] *)
Definition return_if (cond : Prop) `{!Decision cond} (e : error) :
    option error :=
  if decide cond then Some e else None.

(** [if cond { body }] with no else branch *)
Definition when (cond : Prop) `{!Decision cond} (body : option error) :
    option error :=
  if decide cond then body else None.

Declare Scope go_scope.
Delimit Scope go_scope with go.
Notation "s ;; k" := (seq_err s k)
  (at level 100, k at level 200, right associativity) : go_scope.

(** The result of a call that either returns or panics with a value. *)
Inductive outcome (A : Type) : Type :=
  | Returns (a : A)
  | Panics (v : string).
Arguments Returns {A} a.
Arguments Panics {A} v.

(** ** Types of [k8s.io/api/core/v1] and of apimachinery *)
Module corev1.
Record SecretKeySelector : Type := {
  sks_Name : string;
  sks_Key : string;
  sks_Optional : option bool;
}.
Record ConfigMapKeySelector : Type := {
  cms_Name : string;
  cms_Key : string;
  cms_Optional : option bool;
}.
#[global] Instance SecretKeySelector_eq_dec : EqDecision SecretKeySelector.
Proof. solve_decision. Defined.
#[global] Instance ConfigMapKeySelector_eq_dec :
  EqDecision ConfigMapKeySelector.
Proof. solve_decision. Defined.
End corev1.

Module metav1.
Record LabelSelectorRequirement : Type := {
  Key : string;
  Operator : string;
  Values : list string;
}.
Record LabelSelector : Type := {
  MatchLabels : gmap string string;
  MatchExpressions : list LabelSelectorRequirement;
}.
End metav1.

Module schema.
Record GroupKind : Type := { gk_Group : string; gk_Kind : string }.
Record GroupResource : Type := { gr_Group : string; gr_Resource : string }.
End schema.

(** ** SecretOrConfigMap *)
Module SecretOrConfigMap.
Record t : Type := {
  Secret : option corev1.SecretKeySelector;
  ConfigMap : option corev1.ConfigMapKeySelector;
}.

#[global] Instance eq_dec : EqDecision t.
Proof. solve_decision. Defined.

(** [SecretOrConfigMap{}] *)
Definition zero : t := {| Secret := None; ConfigMap := None |}.

Definition Validate (c : t) : option error :=
  (return_if (Secret c ≠ None ∧ ConfigMap c ≠ None)
     (SecretOrConfigMapValidationError
        "SecretOrConfigMap can not specify both Secret and ConfigMap") ;;
   None)%go.
End SecretOrConfigMap.

(** ** SafeTLSConfig *)
Module SafeTLSConfig.
Record t : Type := {
  CA : SecretOrConfigMap.t;
  Cert : SecretOrConfigMap.t;
  KeySecret : option corev1.SecretKeySelector;
  ServerName : string;
  InsecureSkipVerify : bool;
}.

Definition Validate (c : t) : option error :=
  (when (CA c ≠ SecretOrConfigMap.zero)
     (SecretOrConfigMap.Validate (CA c)) ;;
   when (Cert c ≠ SecretOrConfigMap.zero)
     (SecretOrConfigMap.Validate (Cert c)) ;;
   return_if (Cert c ≠ SecretOrConfigMap.zero ∧ KeySecret c = None)
     (TLSConfigValidationError "client cert specified without client key") ;;
   return_if (KeySecret c ≠ None ∧ Cert c = SecretOrConfigMap.zero)
     (TLSConfigValidationError "client key specified without client cert") ;;
   None)%go.
End SafeTLSConfig.

(** ** TLSConfig: the safe parameters plus the file parameters *)
Module TLSConfig.
Record t : Type := {
  Safe : SafeTLSConfig.t;          (* the embedded SafeTLSConfig *)
  CAFile : string;
  CertFile : string;
  KeyFile : string;
}.

(** Fields promoted from the embedded struct. *)
Definition CA (c : t) := SafeTLSConfig.CA (Safe c).
Definition Cert (c : t) := SafeTLSConfig.Cert (Safe c).
Definition KeySecret (c : t) := SafeTLSConfig.KeySecret (Safe c).

(** The two locals of [Validate]. *)
Definition hasCert (c : t) : bool :=
  bool_decide (CertFile c ≠ "")
  || bool_decide (Cert c ≠ SecretOrConfigMap.zero).
Definition hasKey (c : t) : bool :=
  bool_decide (KeyFile c ≠ "") || bool_decide (KeySecret c ≠ None).

(** [if err := sel.Validate(); err != nil { return e }]: the error of the
    selector is dropped and [e] returned in its place. *)
Definition replace_err (r : option error) (e : error) : option error :=
  match r with
  | Some _ => Some e
  | None => None
  end.

Definition Validate (c : t) : option error :=
  (when (CA c ≠ SecretOrConfigMap.zero)
     (return_if (CAFile c ≠ "")
        (TLSConfigValidationError
           "tls config can not both specify CAFile and CA") ;;
      replace_err (SecretOrConfigMap.Validate (CA c))
        (TLSConfigValidationError "tls config CA is invalid")) ;;
   when (Cert c ≠ SecretOrConfigMap.zero)
     (return_if (CertFile c ≠ "")
        (TLSConfigValidationError
           "tls config can not both specify CertFile and Cert") ;;
      replace_err (SecretOrConfigMap.Validate (Cert c))
        (TLSConfigValidationError "tls config Cert is invalid")) ;;
   return_if (KeyFile c ≠ "" ∧ KeySecret c ≠ None)
     (TLSConfigValidationError
        "tls config can not both specify KeyFile and KeySecret") ;;
   return_if (hasCert c ∧ ¬ hasKey c)
     (TLSConfigValidationError
        "tls config can not specify client cert without client key") ;;
   return_if (hasKey c ∧ ¬ hasCert c)
     (TLSConfigValidationError
        "tls config can not specify client key without client cert") ;;
   None)%go.
End TLSConfig.

(** [err.Error()] on the errors of the other validators, under a name the
    modules below can use next to an [Error] of their own. *)
Definition error_message (e : error) : string := Error e.

(** ** WebTLSConfig

    [WebTLSConfig.Validate] returns nil or a [*WebTLSConfigError], a type
    of its own; its receiver may be nil. *)
Module WebTLSConfig.
Record t : Type := {
  KeySecret : corev1.SecretKeySelector;
  Cert : SecretOrConfigMap.t;
  ClientAuthType : string;
  ClientCA : SecretOrConfigMap.t;
  MinVersion : string;
  MaxVersion : string;
  CipherSuites : list string;
  PreferServerCipherSuites : option bool;
  CurvePreferences : list string;
}.

Inductive WebTLSConfigError : Type :=
  | mkWebTLSConfigError (err : string).

Definition Error (e : WebTLSConfigError) : string :=
  match e with
  | mkWebTLSConfigError err => err
  end.

(** [v1.SecretKeySelector{}] *)
Definition zero_key : corev1.SecretKeySelector :=
  {| corev1.sks_Name := ""; corev1.sks_Key := "";
     corev1.sks_Optional := None |}.

(** [fmt.Sprintf] of the prefix and [err.Error()] *)
Definition wrap (err : error) : WebTLSConfigError :=
  mkWebTLSConfigError ("invalid web tls config: " +:+ error_message err).

Definition Validate (c : option t) : option WebTLSConfigError :=
  match c with
  | None => None
  | Some c =>
    match
      (if decide (ClientCA c ≠ SecretOrConfigMap.zero)
       then SecretOrConfigMap.Validate (ClientCA c) else None)
    with
    | Some err => Some (wrap err)
    | None =>
      if decide (Cert c = SecretOrConfigMap.zero) then
        Some (mkWebTLSConfigError
                "invalid web tls config: cert must be defined")
      else
        match SecretOrConfigMap.Validate (Cert c) with
        | Some err => Some (wrap err)
        | None =>
          if decide (KeySecret c = zero_key) then
            Some (mkWebTLSConfigError
                    "invalid web tls config: key must be defined")
          else None
        end
    end
  end.
End WebTLSConfig.

(** ** OAuth2 *)
Module OAuth2.
Record t : Type := {
  ClientID : SecretOrConfigMap.t;
  ClientSecret : corev1.SecretKeySelector;
  TokenURL : string;
  Scopes : list string;
  EndpointParams : gmap string string;
}.

(** [if err := o.ClientID.Validate(); err != nil { return wrapped }], the
    message being [fmt.Sprintf] of the prefix and [err.Error()]. *)
Definition wrap_client_id (r : option error) : option error :=
  match r with
  | Some err =>
      Some (OAuth2ValidationError
              ("invalid OAuth2 client id: " +:+ Error err))
  | None => None
  end.

Definition Validate (o : t) : option error :=
  (return_if (TokenURL o = "")
     (OAuth2ValidationError "OAuth2 token url must be specified") ;;
   return_if (ClientID o = SecretOrConfigMap.zero)
     (OAuth2ValidationError "OAuth2 client id must be specified") ;;
   wrap_client_id (SecretOrConfigMap.Validate (ClientID o)) ;;
   None)%go.
End OAuth2.

(** ** SafeAuthorization and Authorization *)
Definition basic_auth_hint : string :=
  "Authorization type cannot be set to " +:+ dquote +:+ "basic" +:+ dquote
  +:+ ", use " +:+ dquote +:+ "basic_auth" +:+ dquote +:+ " instead".

Module SafeAuthorization.
Record t : Type := {
  Type_ : string;                       (* the field Type *)
  Credentials : option corev1.SecretKeySelector;
}.

(** The receiver is a pointer, and [Validate] accepts the nil one. *)
Definition Validate `{!GoImports} (c : option t) : option error :=
  match c with
  | None => None
  | Some c =>
    (return_if (strings_ToLower (strings_TrimSpace (Type_ c)) = "basic")
       (AuthorizationValidationError basic_auth_hint) ;;
     return_if (Credentials c = None)
       (AuthorizationValidationError
          "Authorization credentials are required") ;;
     None)%go
  end.
End SafeAuthorization.

Module Authorization.
Record t : Type := {
  Safe : SafeAuthorization.t;       (* the embedded SafeAuthorization *)
  CredentialsFile : string;
}.

(** Fields promoted from the embedded struct. *)
Definition Type_ (c : t) := SafeAuthorization.Type_ (Safe c).
Definition Credentials (c : t) := SafeAuthorization.Credentials (Safe c).

Definition Validate `{!GoImports} (c : t) : option error :=
  (return_if (Credentials c ≠ None ∧ CredentialsFile c ≠ "")
     (AuthorizationValidationError
        "Authorization can not specify both Credentials and CredentialsFile") ;;
   return_if (strings_ToLower (strings_TrimSpace (Type_ c)) = "basic")
     (AuthorizationValidationError basic_auth_hint) ;;
   None)%go.
End Authorization.

(** ** ProbeTargets *)
Record RelabelConfig : Type := {
  SourceLabels : list string;
  Separator : string;
  TargetLabel : string;
  Regex : string;
  Modulus : N;                              (* uint64 *)
  Replacement : string;
  Action : string;
}.

Record NamespaceSelector : Type := {
  Any : bool;
  MatchNames : list string;
}.

Record ProbeTargetStaticConfig : Type := {
  Targets : list string;
  Labels : gmap string string;
  static_RelabelConfigs : list (option RelabelConfig);
}.

Record ProbeTargetIngress : Type := {
  Selector : metav1.LabelSelector;
  ingress_NamespaceSelector : NamespaceSelector;
  ingress_RelabelConfigs : list (option RelabelConfig);
}.

Module ProbeTargets.
Record t : Type := {
  StaticConfig : option ProbeTargetStaticConfig;
  Ingress : option ProbeTargetIngress;
}.

Definition Validate (it : t) : option error :=
  (return_if (StaticConfig it = None ∧ Ingress it = None)
     (ProbeTargetsValidationError
        "at least one of .spec.targets.staticConfig and .spec.targets.ingress is required") ;;
   None)%go.
End ProbeTargets.

(** ** The resource names, their kinds, and the table between them *)
Definition PrometheusesKind : string := "Prometheus".
Definition PrometheusName : string := "prometheuses".
Definition AlertmanagersKind : string := "Alertmanager".
Definition AlertmanagerName : string := "alertmanagers".
Definition ServiceMonitorsKind : string := "ServiceMonitor".
Definition ServiceMonitorName : string := "servicemonitors".
Definition PodMonitorsKind : string := "PodMonitor".
Definition PodMonitorName : string := "podmonitors".
Definition PrometheusRuleKind : string := "CustomPrometheusRule".
Definition PrometheusRuleName : string := "customprometheusrules".
Definition ProbesKind : string := "Probe".
Definition ProbeName : string := "probes".

Definition resourceToKind : gmap string string :=
  list_to_map [
    (PrometheusName, PrometheusesKind);
    (AlertmanagerName, AlertmanagersKind);
    (ServiceMonitorName, ServiceMonitorsKind);
    (PodMonitorName, PodMonitorsKind);
    (PrometheusRuleName, PrometheusRuleKind);
    (ProbeName, ProbesKind)
  ].

(** ** ObjectReference *)
Module ObjectReference.
Record t : Type := {
  Group : string;
  Resource : string;
  Namespace : string;
  Name : string;
}.

(** The values the schema marker
    [+kubebuilder:validation:Enum=prometheusrules;servicemonitors;podmonitors;probes]
    allows for the field [Resource]. *)
Definition Resource_Enum : list string :=
  ["prometheusrules"; "servicemonitors"; "podmonitors"; "probes"].

Definition getGroup `{!GoImports} (obj : t) : string :=
  if decide (Group obj = "") then monitoring_GroupName else Group obj.

Definition GroupResource `{!GoImports} (obj : t) : schema.GroupResource :=
  {| schema.gr_Resource := Resource obj; schema.gr_Group := getGroup obj |}.

(** A Go map indexed by a key it does not hold yields the zero value, the
    empty string here. *)
Definition index (m : gmap string string) (k : string) : string :=
  default "" (m !! k).

Definition GroupKind `{!GoImports} (obj : t) : outcome schema.GroupKind :=
  match resourceToKind !! Resource obj with
  | None =>
      Panics ("failed to map resource " +:+ fmt_q (Resource obj)
              +:+ " to a kind")
  | Some _ =>
      Returns {| schema.gk_Kind := index resourceToKind (Resource obj);
                 schema.gk_Group := getGroup obj |}
  end.
End ObjectReference.

(** ** The imports on ASCII text

    An executable instance of [GoImports], used to run the validators on
    concrete values. On a string of ASCII bytes, [strings.TrimSpace] drops
    the leading and trailing bytes among tab, line feed, vertical tab, form
    feed, carriage return and space, and [strings.ToLower] adds 32 to the
    bytes from A to Z; on a string of printable ASCII with neither a quote
    nor a backslash, [%q] prints the string between two quotes. Bytes
    outside ASCII are left alone here, which is not what Go does with
    them. *)
Module ascii_model.
Fixpoint trim_left (s : string) : string :=
  match s with
  | String a s' => if Ascii.is_space a then trim_left s' else s
  | EmptyString => EmptyString
  end.

Definition TrimSpace (s : string) : string :=
  String.rev (trim_left (String.rev (trim_left s))).

Definition lower (a : Ascii.ascii) : Ascii.ascii :=
  let n := Ascii.N_of_ascii a in
  if ((65 <=? n) && (n <=? 90))%N then Ascii.ascii_of_N (n + 32) else a.

Fixpoint ToLower (s : string) : string :=
  match s with
  | String a s' => String (lower a) (ToLower s')
  | EmptyString => EmptyString
  end.

Definition q (s : string) : string := dquote +:+ s +:+ dquote.

Definition imports : GoImports := {|
  strings_TrimSpace := TrimSpace;
  strings_ToLower := ToLower;
  fmt_q := q;
  monitoring_GroupName := "monitoring.coreos.com";
|}.
End ascii_model.

(** ** Sample values *)
Definition secret_ref : corev1.SecretKeySelector :=
  {| corev1.sks_Name := "tls"; corev1.sks_Key := "tls.key";
     corev1.sks_Optional := None |}.

Definition configmap_ref : corev1.ConfigMapKeySelector :=
  {| corev1.cms_Name := "tls"; corev1.cms_Key := "ca.crt";
     corev1.cms_Optional := None |}.

Definition only_secret : SecretOrConfigMap.t :=
  {| SecretOrConfigMap.Secret := Some secret_ref;
     SecretOrConfigMap.ConfigMap := None |}.

Definition only_configmap : SecretOrConfigMap.t :=
  {| SecretOrConfigMap.Secret := None;
     SecretOrConfigMap.ConfigMap := Some configmap_ref |}.

Definition secret_and_configmap : SecretOrConfigMap.t :=
  {| SecretOrConfigMap.Secret := Some secret_ref;
     SecretOrConfigMap.ConfigMap := Some configmap_ref |}.

(** ** The errors by the names the design gives them *)
Definition ConflictingReferenceError : error :=
  SecretOrConfigMapValidationError
    "SecretOrConfigMap can not specify both Secret and ConfigMap".
Definition MissingKeyError : error :=
  TLSConfigValidationError "client cert specified without client key".
Definition MissingCertError : error :=
  TLSConfigValidationError "client key specified without client cert".
Definition ConflictingCAError : error :=
  TLSConfigValidationError "tls config can not both specify CAFile and CA".
Definition ConflictingCertError : error :=
  TLSConfigValidationError
    "tls config can not both specify CertFile and Cert".
Definition ConflictingKeyError : error :=
  TLSConfigValidationError
    "tls config can not both specify KeyFile and KeySecret".
Definition InvalidCAError : error :=
  TLSConfigValidationError "tls config CA is invalid".
Definition InvalidCertError : error :=
  TLSConfigValidationError "tls config Cert is invalid".
Definition IncompletePairError_no_key : error :=
  TLSConfigValidationError
    "tls config can not specify client cert without client key".
Definition IncompletePairError_no_cert : error :=
  TLSConfigValidationError
    "tls config can not specify client key without client cert".
Definition MissingTokenURLError : error :=
  OAuth2ValidationError "OAuth2 token url must be specified".
Definition MissingClientIDError : error :=
  OAuth2ValidationError "OAuth2 client id must be specified".
Definition InvalidClientIDError (cause : error) : error :=
  OAuth2ValidationError ("invalid OAuth2 client id: " +:+ Error cause).
Definition ReservedTypeError : error :=
  AuthorizationValidationError basic_auth_hint.
Definition MissingCredentialsError : error :=
  AuthorizationValidationError "Authorization credentials are required".
Definition ConflictingCredentialsError : error :=
  AuthorizationValidationError
    "Authorization can not specify both Credentials and CredentialsFile".
Definition NoTargetSourceError : error :=
  ProbeTargetsValidationError
    "at least one of .spec.targets.staticConfig and .spec.targets.ingress is required".

(** ** TLS parameters used below *)
Definition safe_tls (ca cert : SecretOrConfigMap.t)
    (key : option corev1.SecretKeySelector) : SafeTLSConfig.t :=
  {| SafeTLSConfig.CA := ca; SafeTLSConfig.Cert := cert;
     SafeTLSConfig.KeySecret := key; SafeTLSConfig.ServerName := "example";
     SafeTLSConfig.InsecureSkipVerify := false |}.

Definition tls (ca cert : SecretOrConfigMap.t)
    (key : option corev1.SecretKeySelector) (caFile certFile keyFile : string) :
    TLSConfig.t :=
  {| TLSConfig.Safe := safe_tls ca cert key; TLSConfig.CAFile := caFile;
     TLSConfig.CertFile := certFile; TLSConfig.KeyFile := keyFile |}.

(** A slot of the file-augmented parameters holds both of its forms. *)
Definition both_CA (c : TLSConfig.t) : Prop :=
  TLSConfig.CA c ≠ SecretOrConfigMap.zero ∧ TLSConfig.CAFile c ≠ "".
Definition both_Cert (c : TLSConfig.t) : Prop :=
  TLSConfig.Cert c ≠ SecretOrConfigMap.zero ∧ TLSConfig.CertFile c ≠ "".
Definition both_Key (c : TLSConfig.t) : Prop :=
  TLSConfig.KeyFile c ≠ "" ∧ TLSConfig.KeySecret c ≠ None.

(** The three mutual-exclusion checks of [TLSConfig.Validate] pass. *)
Definition exclusive_slots (c : TLSConfig.t) : Prop :=
  ¬ both_CA c ∧ ¬ both_Cert c ∧ ¬ both_Key c.

(** The result is one of the two incomplete-pair errors. *)
Definition incomplete_pair (r : option error) : Prop :=
  r = Some IncompletePairError_no_key ∨ r = Some IncompletePairError_no_cert.

(** A CA selector with both references and no CA file, a Cert file, and no
    key at all. *)
Definition invalid_ca_cert_file_only : TLSConfig.t :=
  tls secret_and_configmap SecretOrConfigMap.zero None "" "/etc/cert.pem" "".

#[global] Instance both_CA_dec c : Decision (both_CA c).
Proof. unfold both_CA; apply _. Defined.
#[global] Instance both_Cert_dec c : Decision (both_Cert c).
Proof. unfold both_Cert; apply _. Defined.
#[global] Instance both_Key_dec c : Decision (both_Key c).
Proof. unfold both_Key; apply _. Defined.

(** The rules of the file-augmented parameters as a list, in the order
    [TLSConfig.Validate] tests them; the first rule violated gives the
    error, and the completeness rule comes last. *)
Definition TLSConfig_rules (c : TLSConfig.t) : option error :=
  if decide (both_CA c) then Some ConflictingCAError
  else if decide (SecretOrConfigMap.Validate (TLSConfig.CA c) ≠ None)
  then Some InvalidCAError
  else if decide (both_Cert c) then Some ConflictingCertError
  else if decide (SecretOrConfigMap.Validate (TLSConfig.Cert c) ≠ None)
  then Some InvalidCertError
  else if decide (both_Key c) then Some ConflictingKeyError
  else if TLSConfig.hasCert c && negb (TLSConfig.hasKey c)
  then Some IncompletePairError_no_key
  else if TLSConfig.hasKey c && negb (TLSConfig.hasCert c)
  then Some IncompletePairError_no_cert
  else None.

(** A key file and a key reference together, next to an invalid CA
    selector and a Cert selector with no file. *)
Definition key_twice : TLSConfig.t :=
  tls secret_and_configmap only_secret (Some secret_ref)
    "" "" "/etc/key.pem".

(** A Cert file and a key file, and a CA reference. *)
Definition cert_and_key_files : TLSConfig.t :=
  tls only_configmap SecretOrConfigMap.zero None
    "" "/etc/cert.pem" "/etc/key.pem".

(** A Cert reference and nothing else. *)
Definition cert_reference_only : TLSConfig.t :=
  tls SecretOrConfigMap.zero only_secret None "" "" "".

(** A key reference and nothing else. *)
Definition key_reference_only : TLSConfig.t :=
  tls SecretOrConfigMap.zero SecretOrConfigMap.zero (Some secret_ref) "" "" "".

(** A CA file and a CA reference. *)
Definition ca_twice : TLSConfig.t :=
  tls only_secret SecretOrConfigMap.zero None "/etc/ca.pem" "" "".

(** ** Other sample values *)
Definition oauth2 (clientID : SecretOrConfigMap.t) (tokenURL : string) :
    OAuth2.t :=
  {| OAuth2.ClientID := clientID; OAuth2.ClientSecret := secret_ref;
     OAuth2.TokenURL := tokenURL; OAuth2.Scopes := ["metrics"];
     OAuth2.EndpointParams := ∅ |}.

Definition safe_authorization (type : string)
    (credentials : option corev1.SecretKeySelector) : SafeAuthorization.t :=
  {| SafeAuthorization.Type_ := type;
     SafeAuthorization.Credentials := credentials |}.

Definition authorization (type : string)
    (credentials : option corev1.SecretKeySelector) (file : string) :
    Authorization.t :=
  {| Authorization.Safe := safe_authorization type credentials;
     Authorization.CredentialsFile := file |}.

(** The type basic, a credentials reference and a credentials file. *)
Definition basic_with_both : Authorization.t :=
  authorization "basic" (Some secret_ref) "/etc/token".

Definition static_targets : ProbeTargetStaticConfig :=
  {| Targets := ["example.com"]; Labels := ∅; static_RelabelConfigs := [] |}.

Definition ingress_targets : ProbeTargetIngress :=
  {| Selector := {| metav1.MatchLabels := ∅; metav1.MatchExpressions := [] |};
     ingress_NamespaceSelector := {| Any := true; MatchNames := [] |};
     ingress_RelabelConfigs := [] |}.

Definition object_reference (resource : string) : ObjectReference.t :=
  {| ObjectReference.Group := ""; ObjectReference.Resource := resource;
     ObjectReference.Namespace := "monitoring"; ObjectReference.Name := "" |}.

(** [strings.ToLower(strings.TrimSpace(s))], the type as the two
    authorization validators compare it. *)
Definition normalized `{!GoImports} (s : string) : string :=
  strings_ToLower (strings_TrimSpace s).

(** ** Predicates and values of the further properties *)

(** A selector with both references, and one with exactly one of them. *)
Definition both_set (c : SecretOrConfigMap.t) : Prop :=
  SecretOrConfigMap.Secret c ≠ None ∧ SecretOrConfigMap.ConfigMap c ≠ None.
Definition exactly_one (c : SecretOrConfigMap.t) : Prop :=
  (SecretOrConfigMap.Secret c ≠ None ∧ SecretOrConfigMap.ConfigMap c = None)
  ∨ (SecretOrConfigMap.Secret c = None ∧ SecretOrConfigMap.ConfigMap c ≠ None).

Definition web_tls (key : corev1.SecretKeySelector)
    (cert clientCA : SecretOrConfigMap.t) : WebTLSConfig.t :=
  {| WebTLSConfig.KeySecret := key; WebTLSConfig.Cert := cert;
     WebTLSConfig.ClientAuthType := "RequireAndVerifyClientCert";
     WebTLSConfig.ClientCA := clientCA;
     WebTLSConfig.MinVersion := "TLS12"; WebTLSConfig.MaxVersion := "TLS13";
     WebTLSConfig.CipherSuites := []; WebTLSConfig.PreferServerCipherSuites := None;
     WebTLSConfig.CurvePreferences := [] |}.

Definition WebCertMissingError : WebTLSConfig.WebTLSConfigError :=
  WebTLSConfig.mkWebTLSConfigError
    "invalid web tls config: cert must be defined".
Definition WebKeyMissingError : WebTLSConfig.WebTLSConfigError :=
  WebTLSConfig.mkWebTLSConfigError
    "invalid web tls config: key must be defined".
Definition WebSelectorError : WebTLSConfig.WebTLSConfigError :=
  WebTLSConfig.wrap ConflictingReferenceError.

(** The reference [obj] with its group written out as [g]. *)
Definition with_group (obj : ObjectReference.t) (g : string) :
    ObjectReference.t :=
  {| ObjectReference.Group := g;
     ObjectReference.Resource := ObjectReference.Resource obj;
     ObjectReference.Namespace := ObjectReference.Namespace obj;
     ObjectReference.Name := ObjectReference.Name obj |}.

(** * Properties *)

(** Runs a validator symbolically: one case per condition it tests. *)
Ltac go_unfold :=
  unfold seq_err, return_if, when, TLSConfig.replace_err,
    OAuth2.wrap_client_id in *.
Ltac go_cases := go_unfold; repeat case_decide.

(** ** SecretOrConfigMap *)

Lemma SecretOrConfigMap_zero_iff (c : SecretOrConfigMap.t) :
  c = SecretOrConfigMap.zero ↔
  SecretOrConfigMap.Secret c = None ∧ SecretOrConfigMap.ConfigMap c = None.
Proof.
  destruct c as [s m]; unfold SecretOrConfigMap.zero; simpl.
  split; [intros [= -> ->] | intros [-> ->]]; done.
Qed.

Lemma SecretOrConfigMap_zero_valid :
  SecretOrConfigMap.Validate SecretOrConfigMap.zero = None.
Proof. reflexivity. Qed.

(** C4. A selector is rejected exactly when both the secret and the
    config-map reference are set, and then with the conflicting-reference
    error; with one of them set, or none, it is accepted. *)
Theorem SecretOrConfigMap_Validate_fails_iff_both (c : SecretOrConfigMap.t) :
  (SecretOrConfigMap.Validate c = Some ConflictingReferenceError ↔
     SecretOrConfigMap.Secret c ≠ None ∧ SecretOrConfigMap.ConfigMap c ≠ None)
  ∧ (SecretOrConfigMap.Validate c = None ↔
       SecretOrConfigMap.Secret c = None ∨ SecretOrConfigMap.ConfigMap c = None).
Proof.
  unfold SecretOrConfigMap.Validate, ConflictingReferenceError.
  destruct c as [[s|] [m|]]; go_cases; simpl in *;
    intuition (discriminate || congruence).
Qed.

Lemma SecretOrConfigMap_Validate_samples :
  SecretOrConfigMap.Validate SecretOrConfigMap.zero = None
  ∧ SecretOrConfigMap.Validate only_secret = None
  ∧ SecretOrConfigMap.Validate only_configmap = None
  ∧ SecretOrConfigMap.Validate secret_and_configmap
    = Some ConflictingReferenceError.
Proof.
  split; [|split; [|split]].
  - apply (SecretOrConfigMap_Validate_fails_iff_both SecretOrConfigMap.zero).
    left; reflexivity.
  - apply (SecretOrConfigMap_Validate_fails_iff_both only_secret).
    right; reflexivity.
  - apply (SecretOrConfigMap_Validate_fails_iff_both only_configmap).
    left; reflexivity.
  - apply (SecretOrConfigMap_Validate_fails_iff_both secret_and_configmap).
    split; discriminate.
Defined.

(** ** SafeTLSConfig *)

(** With valid selectors, the two delegations of [SafeTLSConfig.Validate]
    fall through. *)
Lemma when_valid (sel : SecretOrConfigMap.t) :
  SecretOrConfigMap.Validate sel = None →
  when (sel ≠ SecretOrConfigMap.zero) (SecretOrConfigMap.Validate sel) = None.
Proof. intros Hv. unfold when. case_decide; [exact Hv | reflexivity]. Qed.

(** C3. With valid CA and Cert selectors, the safe TLS parameters are
    rejected exactly when one of the Cert selector and the key reference
    is set without the other: with the missing-key error for a Cert
    without a key, with the missing-cert error for a key without a Cert.
    With both set, or none, they are accepted. *)
Theorem SafeTLSConfig_Validate_cert_key_pairing (c : SafeTLSConfig.t) :
  SecretOrConfigMap.Validate (SafeTLSConfig.CA c) = None →
  SecretOrConfigMap.Validate (SafeTLSConfig.Cert c) = None →
  (SafeTLSConfig.Validate c = Some MissingKeyError ↔
     SafeTLSConfig.Cert c ≠ SecretOrConfigMap.zero
     ∧ SafeTLSConfig.KeySecret c = None)
  ∧ (SafeTLSConfig.Validate c = Some MissingCertError ↔
       SafeTLSConfig.KeySecret c ≠ None
       ∧ SafeTLSConfig.Cert c = SecretOrConfigMap.zero)
  ∧ (SafeTLSConfig.Validate c = None ↔
       (SafeTLSConfig.Cert c = SecretOrConfigMap.zero
        ↔ SafeTLSConfig.KeySecret c = None)).
Proof.
  intros Hca Hcert. unfold SafeTLSConfig.Validate.
  rewrite (when_valid _ Hca), (when_valid _ Hcert).
  unfold MissingKeyError, MissingCertError.
  destruct (decide (SafeTLSConfig.Cert c = SecretOrConfigMap.zero)),
    (SafeTLSConfig.KeySecret c);
    go_cases; simpl; intuition (discriminate || congruence).
Qed.

Lemma SafeTLSConfig_Validate_samples :
  SafeTLSConfig.Validate (safe_tls only_configmap only_secret None)
    = Some MissingKeyError
  ∧ SafeTLSConfig.Validate
      (safe_tls only_configmap SecretOrConfigMap.zero (Some secret_ref))
    = Some MissingCertError
  ∧ SafeTLSConfig.Validate
      (safe_tls SecretOrConfigMap.zero SecretOrConfigMap.zero None) = None
  ∧ SafeTLSConfig.Validate
      (safe_tls only_configmap only_secret (Some secret_ref)) = None.
Proof.
  split; [|split; [|split]].
  - apply (SafeTLSConfig_Validate_cert_key_pairing
             (safe_tls only_configmap only_secret None));
      [reflexivity | reflexivity | split; [discriminate | reflexivity]].
  - apply (SafeTLSConfig_Validate_cert_key_pairing
             (safe_tls only_configmap SecretOrConfigMap.zero (Some secret_ref)));
      [reflexivity | reflexivity | split; [discriminate | reflexivity]].
  - apply (SafeTLSConfig_Validate_cert_key_pairing
             (safe_tls SecretOrConfigMap.zero SecretOrConfigMap.zero None));
      [reflexivity | reflexivity | split; reflexivity].
  - apply (SafeTLSConfig_Validate_cert_key_pairing
             (safe_tls only_configmap only_secret (Some secret_ref)));
      [reflexivity | reflexivity | split; discriminate].
Defined.

(** The nested selectors are checked first: an invalid CA or Cert selector
    is reported whatever the pairing of Cert and key. *)
Lemma SafeTLSConfig_Validate_nested_first :
  SafeTLSConfig.Validate (safe_tls secret_and_configmap only_secret None)
    = Some ConflictingReferenceError
  ∧ SafeTLSConfig.Validate
      (safe_tls SecretOrConfigMap.zero secret_and_configmap None)
    = Some ConflictingReferenceError.
Proof. split; reflexivity. Qed.

(** ** TLSConfig *)

(** The block run for the CA and for the Cert selector: a conflict with
    the file is tested before the selector itself. *)
Lemma selector_block (sel : SecretOrConfigMap.t) (file : string)
    (both invalid : error) :
  when (sel ≠ SecretOrConfigMap.zero)
    (return_if (file ≠ "") both ;;
     TLSConfig.replace_err (SecretOrConfigMap.Validate sel) invalid)%go
  = if decide (sel ≠ SecretOrConfigMap.zero ∧ file ≠ "") then Some both
    else if decide (SecretOrConfigMap.Validate sel ≠ None) then Some invalid
    else None.
Proof.
  destruct sel as [[?|] [?|]]; go_cases; simpl in *; try reflexivity;
    exfalso; intuition (discriminate || congruence).
Qed.

(** [TLSConfig.Validate] tests the rules in the order of the list. *)
Lemma TLSConfig_Validate_rules (c : TLSConfig.t) :
  TLSConfig.Validate c = TLSConfig_rules c.
Proof.
  unfold TLSConfig.Validate, TLSConfig_rules. rewrite !selector_block.
  unfold both_CA_dec, both_Cert_dec, both_Key_dec, both_CA, both_Cert, both_Key.
  destruct (TLSConfig.hasCert c), (TLSConfig.hasKey c);
    go_cases; simpl in *; try reflexivity; exfalso; tauto.
Qed.

Lemma hasCert_iff (c : TLSConfig.t) :
  TLSConfig.hasCert c ↔
  TLSConfig.CertFile c ≠ "" ∨ TLSConfig.Cert c ≠ SecretOrConfigMap.zero.
Proof.
  unfold TLSConfig.hasCert.
  rewrite orb_True, !bool_decide_spec. reflexivity.
Qed.

Lemma hasKey_iff (c : TLSConfig.t) :
  TLSConfig.hasKey c ↔
  TLSConfig.KeyFile c ≠ "" ∨ TLSConfig.KeySecret c ≠ None.
Proof.
  unfold TLSConfig.hasKey.
  rewrite orb_True, !bool_decide_spec. reflexivity.
Qed.

(** C2. A slot of the file-augmented parameters that holds both its
    reference and its file is an error, whatever the other fields are. *)
Theorem TLSConfig_Validate_rejects_both_forms (c : TLSConfig.t) :
  both_CA c ∨ both_Cert c ∨ both_Key c → is_Some (TLSConfig.Validate c).
Proof.
  intros Hboth. rewrite TLSConfig_Validate_rules. unfold TLSConfig_rules.
  repeat case_decide; try (eexists; reflexivity). exfalso; tauto.
Qed.

Lemma TLSConfig_Validate_rejects_key_twice :
  both_Key key_twice ∧ is_Some (TLSConfig.Validate key_twice).
Proof.
  assert (both_Key key_twice) as Hkey by (split; discriminate).
  split; [exact Hkey|].
  apply (TLSConfig_Validate_rejects_both_forms key_twice).
  right; right; exact Hkey.
Defined.

(** A CA file and a CA secret reference: the CA conflict error. *)
Example TLSConfig_Validate_ca_twice :
  TLSConfig.Validate ca_twice = Some ConflictingCAError.
Proof. reflexivity. Qed.

(** The completeness rule on its own: what [TLSConfig.Validate] returns
    once the five rules before it have passed. *)
Lemma TLSConfig_rules_completeness (c : TLSConfig.t) :
  exclusive_slots c →
  SecretOrConfigMap.Validate (TLSConfig.CA c) = None →
  SecretOrConfigMap.Validate (TLSConfig.Cert c) = None →
  TLSConfig_rules c =
    if TLSConfig.hasCert c && negb (TLSConfig.hasKey c)
    then Some IncompletePairError_no_key
    else if TLSConfig.hasKey c && negb (TLSConfig.hasCert c)
    then Some IncompletePairError_no_cert
    else None.
Proof.
  intros (Hca & Hcert & Hkey) Hvca Hvcert. unfold TLSConfig_rules.
  repeat case_decide; try reflexivity; exfalso; tauto.
Qed.

(** C1, as the code has it. On parameters that pass the three
    mutual-exclusion checks and whose CA and Cert selectors are valid,
    hasCert is (Cert file or Cert reference), hasKey is (key file or key
    reference), and the result is an incomplete-pair error exactly when
    hasCert differs from hasKey, the error naming the missing side. The
    checks run in the order of [TLSConfig_rules], the completeness rule
    last, and the first rule violated gives the error: a violated
    exclusion or selector rule is never reported as an incomplete pair. *)
Theorem TLSConfig_Validate_completeness (c : TLSConfig.t) :
  TLSConfig.Validate c = TLSConfig_rules c
  ∧ (¬ (exclusive_slots c
        ∧ SecretOrConfigMap.Validate (TLSConfig.CA c) = None
        ∧ SecretOrConfigMap.Validate (TLSConfig.Cert c) = None) →
     is_Some (TLSConfig.Validate c) ∧ ¬ incomplete_pair (TLSConfig.Validate c))
  ∧ (exclusive_slots c →
     SecretOrConfigMap.Validate (TLSConfig.CA c) = None →
     SecretOrConfigMap.Validate (TLSConfig.Cert c) = None →
     (TLSConfig.hasCert c ↔
        TLSConfig.CertFile c ≠ "" ∨ TLSConfig.Cert c ≠ SecretOrConfigMap.zero)
     ∧ (TLSConfig.hasKey c ↔
          TLSConfig.KeyFile c ≠ "" ∨ TLSConfig.KeySecret c ≠ None)
     ∧ (incomplete_pair (TLSConfig.Validate c) ↔
          TLSConfig.hasCert c ≠ TLSConfig.hasKey c)
     ∧ (TLSConfig.Validate c = Some IncompletePairError_no_key ↔
          TLSConfig.hasCert c ∧ ¬ TLSConfig.hasKey c)
     ∧ (TLSConfig.Validate c = Some IncompletePairError_no_cert ↔
          TLSConfig.hasKey c ∧ ¬ TLSConfig.hasCert c)
     ∧ (TLSConfig.Validate c = None ↔
          TLSConfig.hasCert c = TLSConfig.hasKey c)).
Proof.
  split; [apply TLSConfig_Validate_rules|]. split.
  - intros Hnot. rewrite TLSConfig_Validate_rules.
    unfold TLSConfig_rules, incomplete_pair, exclusive_slots in *.
    repeat case_decide;
      try (split; [eexists; reflexivity | intros [[=]|[=]]]).
    exfalso. apply Hnot. repeat split; assumption.
  - intros Hex Hvca Hvcert.
    rewrite TLSConfig_Validate_rules,
      (TLSConfig_rules_completeness c Hex Hvca Hvcert).
    split; [apply hasCert_iff|]. split; [apply hasKey_iff|].
    unfold incomplete_pair, IncompletePairError_no_key,
      IncompletePairError_no_cert.
    destruct (TLSConfig.hasCert c), (TLSConfig.hasKey c); simpl;
      intuition (discriminate || congruence).
Qed.

Lemma TLSConfig_Validate_completeness_samples :
  TLSConfig.Validate cert_reference_only = Some IncompletePairError_no_key
  ∧ TLSConfig.Validate key_reference_only = Some IncompletePairError_no_cert
  ∧ TLSConfig.Validate cert_and_key_files = None
  ∧ ¬ incomplete_pair (TLSConfig.Validate key_twice).
Proof.
  split; [|split; [|split]].
  - apply (TLSConfig_Validate_completeness cert_reference_only);
      [| reflexivity | reflexivity | split; [exact I | intros []]].
    split; [|split]; intros [H1 H2]; [apply H2 | apply H2 | apply H1];
      reflexivity.
  - apply (TLSConfig_Validate_completeness key_reference_only);
      [| reflexivity | reflexivity | split; [exact I | intros []]].
    split; [|split]; intros [H1 H2]; [apply H1 | apply H1 | apply H1];
      reflexivity.
  - apply (TLSConfig_Validate_completeness cert_and_key_files);
      [| reflexivity | reflexivity | reflexivity].
    split; [|split]; intros [H1 H2]; [apply H2 | apply H1 | apply H2];
      reflexivity.
  - apply (TLSConfig_Validate_completeness key_twice).
    intros (_ & Hca & _). discriminate Hca.
Defined.

(** C1 as it is written: passing the three mutual-exclusion checks is not
    enough. With a Cert file and no key, hasCert differs from hasKey, and
    the CA selector holding both references is what gets reported. *)
Lemma TLSConfig_incomplete_pair_behind_invalid_CA :
  ¬ (∀ c : TLSConfig.t,
       exclusive_slots c →
       (incomplete_pair (TLSConfig.Validate c) ↔
          TLSConfig.hasCert c ≠ TLSConfig.hasKey c)).
Proof.
  intros Hclaim.
  destruct (Hclaim invalid_ca_cert_file_only) as [_ Hback].
  - split; [|split]; intros [H1 H2]; [apply H2 | apply H1 | apply H1];
      reflexivity.
  - destruct Hback as [[=]|[=]]. discriminate.
Qed.

Example TLSConfig_Validate_invalid_ca_cert_file_only :
  exclusive_slots invalid_ca_cert_file_only
  ∧ TLSConfig.hasCert invalid_ca_cert_file_only = true
  ∧ TLSConfig.hasKey invalid_ca_cert_file_only = false
  ∧ TLSConfig.Validate invalid_ca_cert_file_only = Some InvalidCAError.
Proof.
  split; [|repeat split].
  split; [|split]; intros [H1 H2]; [apply H2 | apply H1 | apply H1];
    reflexivity.
Qed.

(** ** OAuth2 *)

(** C7. An empty token URL is the missing-token-URL error whatever the
    other fields are; with a token URL, a client id with neither reference
    is the missing-client-id error; otherwise the result is that of the
    client id selector, its error wrapped as an invalid client id. *)
Theorem OAuth2_Validate_rules (o : OAuth2.t) :
  (OAuth2.TokenURL o = "" → OAuth2.Validate o = Some MissingTokenURLError)
  ∧ (OAuth2.TokenURL o ≠ "" →
     SecretOrConfigMap.Secret (OAuth2.ClientID o) = None →
     SecretOrConfigMap.ConfigMap (OAuth2.ClientID o) = None →
     OAuth2.Validate o = Some MissingClientIDError)
  ∧ (OAuth2.TokenURL o ≠ "" →
     OAuth2.ClientID o ≠ SecretOrConfigMap.zero →
     OAuth2.Validate o =
       match SecretOrConfigMap.Validate (OAuth2.ClientID o) with
       | Some cause => Some (InvalidClientIDError cause)
       | None => None
       end).
Proof.
  unfold OAuth2.Validate, MissingTokenURLError, MissingClientIDError,
    InvalidClientIDError.
  split; [|split].
  - intros Hurl. go_cases; (reflexivity || contradiction).
  - intros Hurl Hs Hm.
    assert (OAuth2.ClientID o = SecretOrConfigMap.zero) as Hzero
      by (apply SecretOrConfigMap_zero_iff; done).
    go_cases; (reflexivity || contradiction).
  - intros Hurl Hid. go_cases; try contradiction.
    destruct (SecretOrConfigMap.Validate (OAuth2.ClientID o)); reflexivity.
Qed.

Lemma OAuth2_Validate_samples :
  OAuth2.Validate (oauth2 secret_and_configmap "")
    = Some MissingTokenURLError
  ∧ OAuth2.Validate (oauth2 SecretOrConfigMap.zero "https://idp/token")
    = Some MissingClientIDError
  ∧ OAuth2.Validate (oauth2 secret_and_configmap "https://idp/token")
    = Some (InvalidClientIDError ConflictingReferenceError)
  ∧ OAuth2.Validate (oauth2 only_secret "https://idp/token") = None.
Proof.
  split; [|split; [|split]].
  - apply (OAuth2_Validate_rules (oauth2 secret_and_configmap "")).
    reflexivity.
  - apply (OAuth2_Validate_rules
             (oauth2 SecretOrConfigMap.zero "https://idp/token"));
      [discriminate | reflexivity | reflexivity].
  - apply (OAuth2_Validate_rules
             (oauth2 secret_and_configmap "https://idp/token"));
      discriminate.
  - apply (OAuth2_Validate_rules (oauth2 only_secret "https://idp/token"));
      discriminate.
Defined.

(** ** ProbeTargets *)

(** C8. The probe targets are rejected, with the no-target-source error,
    exactly when neither the static configuration nor the ingress source
    is set; with one of them, or both, they are accepted. *)
Theorem ProbeTargets_Validate_fails_iff_neither (it : ProbeTargets.t) :
  (ProbeTargets.Validate it = Some NoTargetSourceError ↔
     ProbeTargets.StaticConfig it = None ∧ ProbeTargets.Ingress it = None)
  ∧ (ProbeTargets.Validate it = None ↔
       ProbeTargets.StaticConfig it ≠ None ∨ ProbeTargets.Ingress it ≠ None).
Proof.
  unfold ProbeTargets.Validate, NoTargetSourceError.
  destruct it as [[s|] [i|]]; go_cases; simpl in *;
    intuition (discriminate || congruence).
Qed.

Lemma ProbeTargets_Validate_samples :
  ProbeTargets.Validate
    {| ProbeTargets.StaticConfig := None; ProbeTargets.Ingress := None |}
    = Some NoTargetSourceError
  ∧ ProbeTargets.Validate
      {| ProbeTargets.StaticConfig := Some static_targets;
         ProbeTargets.Ingress := None |} = None
  ∧ ProbeTargets.Validate
      {| ProbeTargets.StaticConfig := None;
         ProbeTargets.Ingress := Some ingress_targets |} = None
  ∧ ProbeTargets.Validate
      {| ProbeTargets.StaticConfig := Some static_targets;
         ProbeTargets.Ingress := Some ingress_targets |} = None.
Proof.
  split; [|split; [|split]].
  - apply (ProbeTargets_Validate_fails_iff_neither
             {| ProbeTargets.StaticConfig := None;
                ProbeTargets.Ingress := None |}).
    split; reflexivity.
  - apply (ProbeTargets_Validate_fails_iff_neither
             {| ProbeTargets.StaticConfig := Some static_targets;
                ProbeTargets.Ingress := None |}).
    left; discriminate.
  - apply (ProbeTargets_Validate_fails_iff_neither
             {| ProbeTargets.StaticConfig := None;
                ProbeTargets.Ingress := Some ingress_targets |}).
    right; discriminate.
  - apply (ProbeTargets_Validate_fails_iff_neither
             {| ProbeTargets.StaticConfig := Some static_targets;
                ProbeTargets.Ingress := Some ingress_targets |}).
    left; discriminate.
Defined.

(** ** SafeAuthorization and Authorization *)

Section authorization.
Context `{!GoImports}.

(** The safe variant tests the type first. *)
Lemma SafeAuthorization_Validate_basic (c : SafeAuthorization.t) :
  normalized (SafeAuthorization.Type_ c) = "basic" →
  SafeAuthorization.Validate (Some c) = Some ReservedTypeError.
Proof.
  unfold normalized, SafeAuthorization.Validate. intros Hbasic.
  go_cases; (reflexivity || contradiction).
Qed.

(** The file-augmented variant tests the two credentials first, and the
    type after them. *)
Lemma Authorization_Validate_order (c : Authorization.t) :
  Authorization.Validate c =
    if decide (Authorization.Credentials c ≠ None
               ∧ Authorization.CredentialsFile c ≠ "")
    then Some ConflictingCredentialsError
    else if decide (normalized (Authorization.Type_ c) = "basic")
    then Some ReservedTypeError
    else None.
Proof.
  unfold normalized, Authorization.Validate. go_cases; reflexivity.
Qed.
End authorization.

(** C5, as the code has it. The safe descriptor whose normalized type is
    basic gets the reserved-type error, whatever its credentials: the type
    is its first rule. The file-augmented descriptor tests its two
    credentials first: with a normalized type basic it gets the
    conflicting-credentials error when the reference and the file are both
    set, and the reserved-type error otherwise. *)
Theorem Authorization_Validate_basic_type `{!GoImports} :
  (∀ c : SafeAuthorization.t,
     normalized (SafeAuthorization.Type_ c) = "basic" →
     SafeAuthorization.Validate (Some c) = Some ReservedTypeError)
  ∧ (∀ c : Authorization.t,
       normalized (Authorization.Type_ c) = "basic" →
       Authorization.Validate c =
         if decide (Authorization.Credentials c ≠ None
                    ∧ Authorization.CredentialsFile c ≠ "")
         then Some ConflictingCredentialsError
         else Some ReservedTypeError).
Proof.
  split.
  - apply SafeAuthorization_Validate_basic.
  - intros c Hbasic. rewrite Authorization_Validate_order.
    repeat case_decide; (reflexivity || contradiction).
Qed.

Lemma Authorization_Validate_basic_samples :
  @SafeAuthorization.Validate ascii_model.imports
    (Some (safe_authorization " Basic " (Some secret_ref)))
    = Some ReservedTypeError
  ∧ @Authorization.Validate ascii_model.imports
      (authorization "BASIC" None "/etc/token")
    = Some ReservedTypeError
  ∧ @Authorization.Validate ascii_model.imports basic_with_both
    = Some ConflictingCredentialsError.
Proof.
  destruct (@Authorization_Validate_basic_type ascii_model.imports)
    as [Hsafe Hfile].
  split; [|split].
  - apply Hsafe. reflexivity.
  - rewrite Hfile; reflexivity.
  - rewrite Hfile; reflexivity.
Defined.

(** C5 as it is written: a descriptor of type basic with a credentials
    reference and a credentials file gets the conflicting-credentials
    error, not the reserved-type error. *)
Lemma Authorization_basic_with_both_is_conflict :
  @normalized ascii_model.imports (Authorization.Type_ basic_with_both)
    = "basic"
  ∧ Authorization.Credentials basic_with_both ≠ None
  ∧ Authorization.CredentialsFile basic_with_both ≠ ""
  ∧ @Authorization.Validate ascii_model.imports basic_with_both
    = Some ConflictingCredentialsError
  ∧ @Authorization.Validate ascii_model.imports basic_with_both
    ≠ Some ReservedTypeError.
Proof.
  split; [reflexivity|]. split; [discriminate|]. split; [discriminate|].
  split; [reflexivity|]. discriminate.
Qed.

(** C6. With a normalized type other than basic, the file-augmented
    descriptor is rejected, with the conflicting-credentials error,
    exactly when the credentials reference and the credentials file are
    both set. With neither set it is accepted, where the safe descriptor
    embedded in it is rejected for its missing credentials. *)
Theorem Authorization_Validate_credentials `{!GoImports}
    (c : Authorization.t) :
  normalized (Authorization.Type_ c) ≠ "basic" →
  (Authorization.Validate c = Some ConflictingCredentialsError ↔
     Authorization.Credentials c ≠ None ∧ Authorization.CredentialsFile c ≠ "")
  ∧ (Authorization.Credentials c = None →
     Authorization.CredentialsFile c = "" →
     Authorization.Validate c = None
     ∧ SafeAuthorization.Validate (Some (Authorization.Safe c))
       = Some MissingCredentialsError).
Proof.
  intros Htype. rewrite Authorization_Validate_order.
  unfold SafeAuthorization.Validate, normalized, Authorization.Type_,
    Authorization.Credentials, ConflictingCredentialsError,
    MissingCredentialsError in *.
  split.
  - repeat case_decide; intuition (discriminate || congruence).
  - intros Hcred Hfile. go_cases; intuition (discriminate || congruence).
Qed.

Lemma Authorization_Validate_credentials_samples :
  @Authorization.Validate ascii_model.imports
    (authorization "Bearer" (Some secret_ref) "/etc/token")
    = Some ConflictingCredentialsError
  ∧ @Authorization.Validate ascii_model.imports (authorization "Bearer" None "")
    = None
  ∧ @SafeAuthorization.Validate ascii_model.imports
      (Some (safe_authorization "Bearer" None))
    = Some MissingCredentialsError.
Proof.
  assert (∀ cred file,
            @normalized ascii_model.imports
              (Authorization.Type_ (authorization "Bearer" cred file))
            ≠ "basic") as Htype by (intros cred file; discriminate).
  split; [|split].
  - apply (@Authorization_Validate_credentials ascii_model.imports
             (authorization "Bearer" (Some secret_ref) "/etc/token")
             (Htype _ _)).
    split; discriminate.
  - apply (@Authorization_Validate_credentials ascii_model.imports
             (authorization "Bearer" None "") (Htype _ _)); reflexivity.
  - apply (@Authorization_Validate_credentials ascii_model.imports
             (authorization "Bearer" None "") (Htype _ _)); reflexivity.
Defined.

(** ** ObjectReference *)

(** The table holds the six pairs of its literal and nothing else. *)
Lemma resourceToKind_entries (name kind : string) :
  resourceToKind !! name = Some kind ↔
  (name, kind) ∈ [ ("prometheuses", "Prometheus");
                   ("alertmanagers", "Alertmanager");
                   ("servicemonitors", "ServiceMonitor");
                   ("podmonitors", "PodMonitor");
                   ("customprometheusrules", "CustomPrometheusRule");
                   ("probes", "Probe") ].
Proof.
  unfold resourceToKind. rewrite <- elem_of_list_to_map; [reflexivity|].
  apply NoDup_ListNoDup. vm_compute.
  repeat constructor; simpl; intuition discriminate.
Qed.

(** C9. For a name the table holds, [GroupKind] returns the kind the
    table gives it, with the group of the reference; for any other name it
    panics, with a message made from the name alone. The outcome is a
    function of the resource name and the group. *)
Theorem GroupKind_table `{!GoImports} (obj : ObjectReference.t) :
  (∀ kind : string,
     resourceToKind !! ObjectReference.Resource obj = Some kind →
     ObjectReference.GroupKind obj
     = Returns {| schema.gk_Group := ObjectReference.getGroup obj;
                  schema.gk_Kind := kind |})
  ∧ (resourceToKind !! ObjectReference.Resource obj = None →
     ObjectReference.GroupKind obj
     = Panics ("failed to map resource "
               +:+ fmt_q (ObjectReference.Resource obj) +:+ " to a kind"))
  ∧ (∀ obj' : ObjectReference.t,
       ObjectReference.Resource obj' = ObjectReference.Resource obj →
       ObjectReference.Group obj' = ObjectReference.Group obj →
       ObjectReference.GroupKind obj' = ObjectReference.GroupKind obj).
Proof.
  unfold ObjectReference.GroupKind, ObjectReference.index,
    ObjectReference.getGroup.
  split; [|split].
  - intros kind Hkind. rewrite Hkind. reflexivity.
  - intros Hnone. rewrite Hnone. reflexivity.
  - intros obj' Hres Hgroup. rewrite Hres, Hgroup. reflexivity.
Qed.

Lemma GroupKind_table_samples :
  @ObjectReference.GroupKind ascii_model.imports
    (object_reference "customprometheusrules")
    = Returns {| schema.gk_Group := "monitoring.coreos.com";
                 schema.gk_Kind := "CustomPrometheusRule" |}
  ∧ @ObjectReference.GroupKind ascii_model.imports
      (object_reference "probes")
    = Returns {| schema.gk_Group := "monitoring.coreos.com";
                 schema.gk_Kind := "Probe" |}
  ∧ @ObjectReference.GroupKind ascii_model.imports
      (object_reference "secrets")
    = Panics ("failed to map resource " +:+ dquote +:+ "secrets" +:+ dquote
              +:+ " to a kind").
Proof.
  split; [|split].
  - destruct (@GroupKind_table ascii_model.imports
                (object_reference "customprometheusrules")) as (Hin & _ & _).
    apply Hin, resourceToKind_entries. do 4 right. left.
  - destruct (@GroupKind_table ascii_model.imports
                (object_reference "probes")) as (Hin & _ & _).
    apply Hin, resourceToKind_entries. do 5 right. left.
  - destruct (@GroupKind_table ascii_model.imports
                (object_reference "secrets")) as (_ & Hout & _).
    apply Hout. reflexivity.
Defined.

(** C10. The schema accepts the resource name prometheusrules, the table
    has no such key (its key for rules is customprometheusrules, which the
    schema does not accept), and so [GroupKind] panics on every reference
    to prometheusrules. *)
Theorem GroupKind_panics_on_schema_legal_name :
  "prometheusrules" ∈ ObjectReference.Resource_Enum
  ∧ resourceToKind !! "prometheusrules" = None
  ∧ resourceToKind !! "customprometheusrules" = Some "CustomPrometheusRule"
  ∧ PrometheusRuleName = "customprometheusrules"
  ∧ ("customprometheusrules" ∉ ObjectReference.Resource_Enum)
  ∧ (∀ (imports : GoImports) (obj : ObjectReference.t),
       ObjectReference.Resource obj = "prometheusrules" →
       ObjectReference.GroupKind obj
       = Panics ("failed to map resource " +:+ fmt_q "prometheusrules"
                 +:+ " to a kind")).
Proof.
  split; [by left|].
  split; [reflexivity|]. split; [reflexivity|]. split; [reflexivity|].
  split.
  - unfold ObjectReference.Resource_Enum. intros Hin.
    repeat (apply elem_of_cons in Hin as [Hin|Hin]; [discriminate Hin|]).
    by apply elem_of_nil in Hin.
  - intros imports obj Hres. unfold ObjectReference.GroupKind.
    rewrite Hres. reflexivity.
Qed.

(** The other three names the schema accepts are keys of the table. *)
Lemma Resource_Enum_in_table (name : string) :
  name ∈ ObjectReference.Resource_Enum →
  name ≠ "prometheusrules" →
  is_Some (resourceToKind !! name).
Proof.
  unfold ObjectReference.Resource_Enum. intros Hin Hname.
  repeat (apply elem_of_cons in Hin as [->|Hin]);
    [contradiction | by eexists.. |by apply elem_of_nil in Hin].
Qed.

Lemma GroupKind_panics_on_prometheusrules :
  "prometheusrules" ∈ ObjectReference.Resource_Enum
  ∧ @ObjectReference.GroupKind ascii_model.imports
      (object_reference "prometheusrules")
    = Panics ("failed to map resource " +:+ dquote +:+ "prometheusrules"
              +:+ dquote +:+ " to a kind").
Proof.
  destruct GroupKind_panics_on_schema_legal_name
    as (Hschema & _ & _ & _ & _ & Hpanic).
  split; [exact Hschema|].
  apply (Hpanic ascii_model.imports (object_reference "prometheusrules")).
  reflexivity.
Defined.


(** * Further properties *)

Lemma SecretOrConfigMap_valid_iff (c : SecretOrConfigMap.t) :
  SecretOrConfigMap.Validate c = None ↔ ¬ both_set c.
Proof.
  unfold SecretOrConfigMap.Validate, both_set.
  go_cases; intuition (discriminate || congruence).
Qed.

Lemma SecretOrConfigMap_invalid_iff (c : SecretOrConfigMap.t) :
  SecretOrConfigMap.Validate c = Some ConflictingReferenceError ↔ both_set c.
Proof.
  unfold SecretOrConfigMap.Validate, both_set, ConflictingReferenceError.
  go_cases; intuition (discriminate || congruence).
Qed.

Lemma SecretOrConfigMap_cases (c : SecretOrConfigMap.t) :
  c = SecretOrConfigMap.zero ∨ exactly_one c ∨ both_set c.
Proof.
  unfold exactly_one, both_set.
  destruct c as [[s|] [m|]]; simpl;
    [right; right | right; left; left | right; left; right | left];
    (reflexivity || split; (reflexivity || discriminate)).
Qed.

Lemma exactly_one_spec (c : SecretOrConfigMap.t) :
  exactly_one c ↔ c ≠ SecretOrConfigMap.zero ∧ ¬ both_set c.
Proof.
  unfold exactly_one, both_set, SecretOrConfigMap.zero.
  destruct c as [[s|] [m|]]; simpl; intuition (discriminate || congruence).
Qed.

(** The delegation to a selector: the guard adds nothing, the zero
    selector being valid. *)
Lemma when_selector (sel : SecretOrConfigMap.t) :
  when (sel ≠ SecretOrConfigMap.zero) (SecretOrConfigMap.Validate sel)
  = if decide (both_set sel) then Some ConflictingReferenceError else None.
Proof.
  unfold both_set, SecretOrConfigMap.Validate, ConflictingReferenceError.
  destruct sel as [[?|] [?|]]; go_cases; simpl in *; try reflexivity;
    exfalso; intuition (discriminate || congruence).
Qed.

(** ** WebTLSConfig *)

(** [WebTLSConfig.Validate] as the list of its rules. *)
Lemma WebTLSConfig_Validate_rules (c : WebTLSConfig.t) :
  WebTLSConfig.Validate (Some c) =
    if decide (both_set (WebTLSConfig.ClientCA c)) then Some WebSelectorError
    else if decide (WebTLSConfig.Cert c = SecretOrConfigMap.zero)
    then Some WebCertMissingError
    else if decide (both_set (WebTLSConfig.Cert c)) then Some WebSelectorError
    else if decide (WebTLSConfig.KeySecret c = WebTLSConfig.zero_key)
    then Some WebKeyMissingError
    else None.
Proof.
  unfold WebTLSConfig.Validate, WebSelectorError, WebCertMissingError,
    WebKeyMissingError.
  pose proof (when_selector (WebTLSConfig.ClientCA c)) as Hca.
  unfold when in Hca. rewrite Hca. clear Hca.
  unfold both_set, SecretOrConfigMap.Validate, WebTLSConfig.wrap,
    ConflictingReferenceError.
  destruct (WebTLSConfig.Cert c) as [[?|] [?|]];
    go_cases; simpl in *; try reflexivity;
    exfalso; intuition (discriminate || congruence).
Qed.

(** X1. The web TLS parameters are accepted exactly when the client CA
    selector does not hold both references, the certificate selector holds
    exactly one reference, and the key selector is not the zero struct; the
    nil receiver is accepted. *)
Theorem WebTLSConfig_Validate_accepts (c : WebTLSConfig.t) :
  WebTLSConfig.Validate None = None
  ∧ (WebTLSConfig.Validate (Some c) = None ↔
       ¬ both_set (WebTLSConfig.ClientCA c)
       ∧ exactly_one (WebTLSConfig.Cert c)
       ∧ WebTLSConfig.KeySecret c ≠ WebTLSConfig.zero_key).
Proof.
  split; [reflexivity|].
  rewrite WebTLSConfig_Validate_rules, exactly_one_spec.
  repeat case_decide; intuition (discriminate || congruence).
Qed.

Lemma WebTLSConfig_Validate_accepts_samples :
  WebTLSConfig.Validate (Some (web_tls secret_ref only_secret only_configmap))
    = None
  ∧ WebTLSConfig.Validate
      (Some (web_tls secret_ref only_configmap SecretOrConfigMap.zero))
    = None.
Proof.
  split.
  - apply (WebTLSConfig_Validate_accepts
             (web_tls secret_ref only_secret only_configmap)).
    split; [intros [H _]; apply H; reflexivity|].
    split; [left; split; [discriminate | reflexivity] | discriminate].
  - apply (WebTLSConfig_Validate_accepts
             (web_tls secret_ref only_configmap SecretOrConfigMap.zero)).
    split; [intros [H _]; apply H; reflexivity|].
    split; [right; split; [reflexivity | discriminate] | discriminate].
Defined.

(** X2. The rules of the web TLS parameters in the order they are tested:
    a client CA with both references is reported first, wrapped; then a
    certificate selector with no reference, then one with both; a zero key
    is reported only when the two selectors have passed. *)
Theorem WebTLSConfig_Validate_order (c : WebTLSConfig.t) :
  (both_set (WebTLSConfig.ClientCA c) →
   WebTLSConfig.Validate (Some c) = Some WebSelectorError)
  ∧ (¬ both_set (WebTLSConfig.ClientCA c) →
     WebTLSConfig.Cert c = SecretOrConfigMap.zero →
     WebTLSConfig.Validate (Some c) = Some WebCertMissingError)
  ∧ (¬ both_set (WebTLSConfig.ClientCA c) →
     both_set (WebTLSConfig.Cert c) →
     WebTLSConfig.Validate (Some c) = Some WebSelectorError)
  ∧ (WebTLSConfig.Validate (Some c) = Some WebKeyMissingError ↔
       ¬ both_set (WebTLSConfig.ClientCA c)
       ∧ exactly_one (WebTLSConfig.Cert c)
       ∧ WebTLSConfig.KeySecret c = WebTLSConfig.zero_key).
Proof.
  rewrite WebTLSConfig_Validate_rules, exactly_one_spec.
  unfold WebSelectorError, WebCertMissingError, WebKeyMissingError,
    WebTLSConfig.wrap.
  assert (WebTLSConfig.Cert c = SecretOrConfigMap.zero →
          ¬ both_set (WebTLSConfig.Cert c)) as Hzero
    by (intros -> [H _]; apply H; reflexivity).
  repeat case_decide; simpl; intuition (discriminate || congruence).
Qed.

Lemma WebTLSConfig_Validate_order_samples :
  WebTLSConfig.Validate
    (Some (web_tls WebTLSConfig.zero_key SecretOrConfigMap.zero
             secret_and_configmap))
    = Some WebSelectorError
  ∧ WebTLSConfig.Validate
      (Some (web_tls WebTLSConfig.zero_key SecretOrConfigMap.zero only_secret))
    = Some WebCertMissingError
  ∧ WebTLSConfig.Validate
      (Some (web_tls WebTLSConfig.zero_key secret_and_configmap only_secret))
    = Some WebSelectorError
  ∧ WebTLSConfig.Validate
      (Some (web_tls WebTLSConfig.zero_key only_secret only_secret))
    = Some WebKeyMissingError.
Proof.
  split; [|split; [|split]].
  - destruct (WebTLSConfig_Validate_order
                (web_tls WebTLSConfig.zero_key SecretOrConfigMap.zero
                   secret_and_configmap)) as (H & _).
    apply H. split; discriminate.
  - destruct (WebTLSConfig_Validate_order
                (web_tls WebTLSConfig.zero_key SecretOrConfigMap.zero
                   only_secret)) as (_ & H & _).
    apply H; [intros [_ Hm]; apply Hm; reflexivity | reflexivity].
  - destruct (WebTLSConfig_Validate_order
                (web_tls WebTLSConfig.zero_key secret_and_configmap
                   only_secret)) as (_ & _ & H & _).
    apply H; [intros [_ Hm]; apply Hm; reflexivity | split; discriminate].
  - destruct (WebTLSConfig_Validate_order
                (web_tls WebTLSConfig.zero_key only_secret only_secret))
      as (_ & _ & _ & H).
    apply H. split; [intros [_ Hm]; apply Hm; reflexivity|].
    split; [left; split; [discriminate | reflexivity] | reflexivity].
Defined.

(** X3. Every error of the web TLS validator carries a message that starts
    with the same prefix, the selector's own message coming after it. *)
Theorem WebTLSConfig_Validate_message_prefix (c : option WebTLSConfig.t)
    (e : WebTLSConfig.WebTLSConfigError) :
  WebTLSConfig.Validate c = Some e →
  ∃ rest : string,
    WebTLSConfig.Error e = "invalid web tls config: " +:+ rest
    ∧ (rest = "cert must be defined" ∨ rest = "key must be defined"
       ∨ rest = Error ConflictingReferenceError).
Proof.
  destruct c as [c|]; [|discriminate].
  rewrite WebTLSConfig_Validate_rules.
  repeat case_decide; intros [= <-]; eexists; split;
    try reflexivity; auto.
Qed.

Lemma WebTLSConfig_Validate_message_prefix_sample :
  ∃ rest : string,
    WebTLSConfig.Error WebSelectorError = "invalid web tls config: " +:+ rest
    ∧ (rest = "cert must be defined" ∨ rest = "key must be defined"
       ∨ rest = Error ConflictingReferenceError).
Proof.
  apply (WebTLSConfig_Validate_message_prefix
           (Some (web_tls secret_ref secret_and_configmap only_secret))).
  reflexivity.
Defined.

(** ** SafeTLSConfig and TLSConfig *)

(** [SafeTLSConfig.Validate] as the list of its rules. *)
Lemma SafeTLSConfig_Validate_rules (c : SafeTLSConfig.t) :
  SafeTLSConfig.Validate c =
    if decide (both_set (SafeTLSConfig.CA c)
               ∨ both_set (SafeTLSConfig.Cert c))
    then Some ConflictingReferenceError
    else if decide (SafeTLSConfig.Cert c ≠ SecretOrConfigMap.zero
                    ∧ SafeTLSConfig.KeySecret c = None)
    then Some MissingKeyError
    else if decide (SafeTLSConfig.KeySecret c ≠ None
                    ∧ SafeTLSConfig.Cert c = SecretOrConfigMap.zero)
    then Some MissingCertError
    else None.
Proof.
  unfold SafeTLSConfig.Validate. rewrite !when_selector.
  unfold MissingKeyError, MissingCertError.
  go_cases; simpl in *; try reflexivity; exfalso; tauto.
Qed.

(** X4. The safe TLS parameters are accepted exactly when neither the CA
    nor the Cert selector holds both references and the Cert selector is
    set if and only if the key reference is. *)
Theorem SafeTLSConfig_Validate_accepts (c : SafeTLSConfig.t) :
  SafeTLSConfig.Validate c = None ↔
  ¬ both_set (SafeTLSConfig.CA c)
  ∧ ¬ both_set (SafeTLSConfig.Cert c)
  ∧ (SafeTLSConfig.Cert c = SecretOrConfigMap.zero
     ↔ SafeTLSConfig.KeySecret c = None).
Proof.
  rewrite SafeTLSConfig_Validate_rules.
  destruct (decide (SafeTLSConfig.Cert c = SecretOrConfigMap.zero)),
    (SafeTLSConfig.KeySecret c);
    repeat case_decide; intuition (discriminate || congruence).
Qed.

Lemma SafeTLSConfig_Validate_accepts_samples :
  SafeTLSConfig.Validate (safe_tls only_secret only_configmap (Some secret_ref))
    = None
  ∧ ¬ both_set (SafeTLSConfig.CA (safe_tls only_secret SecretOrConfigMap.zero None)).
Proof.
  split.
  - apply (SafeTLSConfig_Validate_accepts
             (safe_tls only_secret only_configmap (Some secret_ref))).
    split; [intros [_ H]; apply H; reflexivity|].
    split; [intros [H _]; apply H; reflexivity|].
    split; discriminate.
  - apply (SafeTLSConfig_Validate_accepts
             (safe_tls only_secret SecretOrConfigMap.zero None)).
    reflexivity.
Defined.

(** X5. The safe validator hands on the selector's own error, of the
    selector's error type, and does so before the pairing of Cert and key
    is looked at: the result is the conflicting-reference error exactly
    when the CA or the Cert selector holds both references. *)
Theorem SafeTLSConfig_Validate_selector_error (c : SafeTLSConfig.t) :
  SafeTLSConfig.Validate c = Some ConflictingReferenceError ↔
  both_set (SafeTLSConfig.CA c) ∨ both_set (SafeTLSConfig.Cert c).
Proof.
  rewrite SafeTLSConfig_Validate_rules.
  unfold ConflictingReferenceError, MissingKeyError, MissingCertError.
  repeat case_decide; intuition (discriminate || congruence).
Qed.

Lemma SafeTLSConfig_Validate_selector_error_sample :
  SafeTLSConfig.Validate (safe_tls only_secret secret_and_configmap None)
    = Some ConflictingReferenceError.
Proof.
  apply (SafeTLSConfig_Validate_selector_error
           (safe_tls only_secret secret_and_configmap None)).
  right; split; discriminate.
Defined.

(** X6. The file-augmented parameters are accepted exactly when no slot
    holds both its forms, neither selector holds both references, and a
    certificate (file or reference) is there if and only if a key (file
    or reference) is. *)
Theorem TLSConfig_Validate_accepts (c : TLSConfig.t) :
  TLSConfig.Validate c = None ↔
  exclusive_slots c
  ∧ ¬ both_set (TLSConfig.CA c)
  ∧ ¬ both_set (TLSConfig.Cert c)
  ∧ TLSConfig.hasCert c = TLSConfig.hasKey c.
Proof.
  rewrite TLSConfig_Validate_rules. unfold TLSConfig_rules, exclusive_slots.
  rewrite <- !SecretOrConfigMap_valid_iff.
  destruct (TLSConfig.hasCert c), (TLSConfig.hasKey c);
    repeat case_decide; simpl; intuition (discriminate || congruence).
Qed.

Lemma TLSConfig_Validate_accepts_samples :
  TLSConfig.Validate cert_and_key_files = None
  ∧ TLSConfig.hasCert ca_twice = TLSConfig.hasKey ca_twice.
Proof.
  split.
  - apply (TLSConfig_Validate_accepts cert_and_key_files).
    split; [split; [|split]; intros [H1 H2];
              [apply H2 | apply H1 | apply H2]; reflexivity|].
    split; [intros [H _]; apply H; reflexivity|].
    split; [intros [H _]; apply H; reflexivity | reflexivity].
  - reflexivity.
Defined.

(** X7. Whatever the file-augmented validator rejects, it rejects with
    an error of its own type: the selector's error is never handed on. *)
Theorem TLSConfig_Validate_error_type (c : TLSConfig.t) (e : error) :
  TLSConfig.Validate c = Some e →
  ∃ msg : string, e = TLSConfigValidationError msg
    ∧ e ≠ ConflictingReferenceError.
Proof.
  rewrite TLSConfig_Validate_rules. unfold TLSConfig_rules.
  repeat case_decide;
    try destruct (TLSConfig.hasCert c && negb (TLSConfig.hasKey c));
    try destruct (TLSConfig.hasKey c && negb (TLSConfig.hasCert c));
    intros [= <-]; eexists; split; try reflexivity; discriminate.
Qed.

Lemma TLSConfig_Validate_error_type_sample :
  ∃ msg : string, InvalidCAError = TLSConfigValidationError msg
    ∧ InvalidCAError ≠ ConflictingReferenceError.
Proof.
  apply (TLSConfig_Validate_error_type invalid_ca_cert_file_only).
  reflexivity.
Defined.

(** X8. Without file paths the file-augmented validator decides as the
    safe validator does on the embedded parameters: both accept, or both
    report the missing key, or both the missing certificate, or both an
    invalid selector. *)
Theorem TLSConfig_without_files (c : TLSConfig.t) :
  TLSConfig.CAFile c = "" → TLSConfig.CertFile c = "" →
  TLSConfig.KeyFile c = "" →
  (TLSConfig.Validate c = None ↔ SafeTLSConfig.Validate (TLSConfig.Safe c) = None)
  ∧ (TLSConfig.Validate c = Some IncompletePairError_no_key ↔
       SafeTLSConfig.Validate (TLSConfig.Safe c) = Some MissingKeyError)
  ∧ (TLSConfig.Validate c = Some IncompletePairError_no_cert ↔
       SafeTLSConfig.Validate (TLSConfig.Safe c) = Some MissingCertError)
  ∧ (TLSConfig.Validate c = Some InvalidCAError
     ∨ TLSConfig.Validate c = Some InvalidCertError ↔
       SafeTLSConfig.Validate (TLSConfig.Safe c)
       = Some ConflictingReferenceError).
Proof.
  destruct c as [[ca cert key name skip] caFile certFile keyFile]; simpl.
  intros -> -> ->.
  destruct key as [k|], ca as [[?|] [?|]], cert as [[?|] [?|]];
    vm_compute; intuition (discriminate || congruence).
Qed.

Lemma TLSConfig_without_files_samples :
  (TLSConfig.Validate cert_reference_only = Some IncompletePairError_no_key ↔
     SafeTLSConfig.Validate (TLSConfig.Safe cert_reference_only)
     = Some MissingKeyError)
  ∧ SafeTLSConfig.Validate (TLSConfig.Safe key_reference_only)
    = Some MissingCertError.
Proof.
  split.
  - apply (TLSConfig_without_files cert_reference_only); reflexivity.
  - apply (TLSConfig_without_files key_reference_only); reflexivity.
Defined.

(** ** OAuth2 *)

(** X9. An OAuth2 descriptor is accepted exactly when its token URL is
    not empty and its client id holds exactly one of the two references. *)
Theorem OAuth2_Validate_accepts (o : OAuth2.t) :
  OAuth2.Validate o = None ↔
  OAuth2.TokenURL o ≠ "" ∧ exactly_one (OAuth2.ClientID o).
Proof.
  rewrite exactly_one_spec, <- SecretOrConfigMap_valid_iff.
  unfold OAuth2.Validate.
  destruct (SecretOrConfigMap.Validate (OAuth2.ClientID o));
    go_cases; simpl; intuition (discriminate || congruence).
Qed.

Lemma OAuth2_Validate_accepts_samples :
  OAuth2.Validate (oauth2 only_configmap "https://idp/token") = None
  ∧ OAuth2.TokenURL (oauth2 only_secret "https://idp/token") ≠ "".
Proof.
  split.
  - apply (OAuth2_Validate_accepts (oauth2 only_configmap "https://idp/token")).
    split; [discriminate | right; split; [reflexivity | discriminate]].
  - apply (OAuth2_Validate_accepts (oauth2 only_secret "https://idp/token")).
    reflexivity.
Defined.

(** X10. The invalid-client-id error is returned exactly when the token
    URL is not empty and the client id holds both references; its message
    is the prefix followed by the selector's own message, and these three
    errors are all [OAuth2.Validate] returns. *)
Theorem OAuth2_Validate_invalid_client_id (o : OAuth2.t) :
  (OAuth2.Validate o = Some (InvalidClientIDError ConflictingReferenceError)
   ↔ OAuth2.TokenURL o ≠ "" ∧ both_set (OAuth2.ClientID o))
  ∧ (OAuth2.Validate o = None
     ∨ OAuth2.Validate o = Some MissingTokenURLError
     ∨ OAuth2.Validate o = Some MissingClientIDError
     ∨ OAuth2.Validate o
       = Some (OAuth2ValidationError
                 ("invalid OAuth2 client id: "
                  +:+ "SecretOrConfigMap can not specify both Secret and ConfigMap"))).
Proof.
  pose proof (SecretOrConfigMap_invalid_iff (OAuth2.ClientID o)) as Hinv.
  pose proof (SecretOrConfigMap_valid_iff (OAuth2.ClientID o)) as Hval.
  assert (OAuth2.ClientID o = SecretOrConfigMap.zero →
          ¬ both_set (OAuth2.ClientID o)) as Hzero
    by (intros -> [H _]; apply H; reflexivity).
  unfold OAuth2.Validate, MissingTokenURLError, MissingClientIDError,
    InvalidClientIDError, ConflictingReferenceError in *.
  destruct (SecretOrConfigMap.Validate (OAuth2.ClientID o)) as [err|] eqn:Hv.
  - assert (err = SecretOrConfigMapValidationError
              "SecretOrConfigMap can not specify both Secret and ConfigMap")
      as ->.
    { revert Hv. unfold SecretOrConfigMap.Validate. go_cases; congruence. }
    go_cases; simpl; intuition (discriminate || congruence).
  - go_cases; simpl; intuition (discriminate || congruence).
Qed.

Lemma OAuth2_Validate_invalid_client_id_sample :
  OAuth2.Validate (oauth2 secret_and_configmap "https://idp/token")
  = Some (InvalidClientIDError ConflictingReferenceError).
Proof.
  apply (OAuth2_Validate_invalid_client_id
           (oauth2 secret_and_configmap "https://idp/token")).
  split; [discriminate | split; discriminate].
Defined.

(** ** SafeAuthorization and Authorization *)

(** X11. The safe authorization descriptor is accepted exactly when its
    receiver is nil, or its normalized type is not basic and it has a
    credentials reference; without the reference, and with a type other
    than basic, the error is the missing-credentials one. *)
Theorem SafeAuthorization_Validate_accepts `{!GoImports}
    (c : option SafeAuthorization.t) :
  (SafeAuthorization.Validate c = None ↔
     c = None
     ∨ ∃ a : SafeAuthorization.t, c = Some a
         ∧ normalized (SafeAuthorization.Type_ a) ≠ "basic"
         ∧ SafeAuthorization.Credentials a ≠ None)
  ∧ (SafeAuthorization.Validate c = Some MissingCredentialsError ↔
       ∃ a : SafeAuthorization.t, c = Some a
         ∧ normalized (SafeAuthorization.Type_ a) ≠ "basic"
         ∧ SafeAuthorization.Credentials a = None).
Proof.
  unfold SafeAuthorization.Validate, normalized, MissingCredentialsError.
  destruct c as [a|].
  - go_cases; split; split;
      try (intros [[=]|(a' & [= <-] & ? & ?)]);
      try (intros (a' & [= <-] & ? & ?));
      try (intros [=]); try contradiction; try reflexivity;
      try (right; exists a; tauto); try (exists a; tauto).
  - split; split; try (intros (a' & [=] & _)); try (intros [=]);
      try tauto; reflexivity.
Qed.

Lemma SafeAuthorization_Validate_accepts_samples :
  @SafeAuthorization.Validate ascii_model.imports
    (Some (safe_authorization "Bearer" (Some secret_ref))) = None
  ∧ @SafeAuthorization.Validate ascii_model.imports None = None.
Proof.
  split.
  - apply (@SafeAuthorization_Validate_accepts ascii_model.imports
             (Some (safe_authorization "Bearer" (Some secret_ref)))).
    right. eexists. split; [reflexivity|]. split; discriminate.
  - apply (@SafeAuthorization_Validate_accepts ascii_model.imports None).
    left; reflexivity.
Defined.

(** X12. The file-augmented authorization descriptor is accepted exactly
    when its credentials reference and credentials file are not both set
    and its normalized type is not basic. *)
Theorem Authorization_Validate_accepts `{!GoImports} (c : Authorization.t) :
  Authorization.Validate c = None ↔
  ¬ (Authorization.Credentials c ≠ None ∧ Authorization.CredentialsFile c ≠ "")
  ∧ normalized (Authorization.Type_ c) ≠ "basic".
Proof.
  rewrite Authorization_Validate_order.
  repeat case_decide; intuition (discriminate || congruence).
Qed.

Lemma Authorization_Validate_accepts_samples :
  @Authorization.Validate ascii_model.imports
    (authorization "Bearer" None "/etc/token") = None
  ∧ @normalized ascii_model.imports
      (Authorization.Type_ (authorization "" None "")) ≠ "basic".
Proof.
  split.
  - apply (@Authorization_Validate_accepts ascii_model.imports
             (authorization "Bearer" None "/etc/token")).
    split; [intros [H _]; apply H; reflexivity | discriminate].
  - apply (@Authorization_Validate_accepts ascii_model.imports
             (authorization "" None "")).
    reflexivity.
Defined.

(** X13. The file-augmented validator and the safe validator on the
    embedded descriptor both accept exactly the descriptors with a type
    other than basic, a credentials reference and no credentials file: a
    descriptor that relies on a credentials file never passes the safe
    validator, and one the safe validator accepts is rejected by the
    file-augmented one as soon as a file is added. *)
Theorem Authorization_and_safe_part `{!GoImports} (c : Authorization.t) :
  (Authorization.Validate c = None
   ∧ SafeAuthorization.Validate (Some (Authorization.Safe c)) = None
   ↔ normalized (Authorization.Type_ c) ≠ "basic"
     ∧ Authorization.Credentials c ≠ None
     ∧ Authorization.CredentialsFile c = "")
  ∧ (SafeAuthorization.Validate (Some (Authorization.Safe c)) = None →
     Authorization.CredentialsFile c ≠ "" →
     Authorization.Validate c = Some ConflictingCredentialsError).
Proof.
  rewrite Authorization_Validate_order.
  unfold SafeAuthorization.Validate, normalized, Authorization.Type_,
    Authorization.Credentials.
  destruct (decide (Authorization.CredentialsFile c = "")).
  - split; go_cases; intuition (discriminate || congruence).
  - split; go_cases; intuition (discriminate || congruence).
Qed.

Lemma Authorization_and_safe_part_sample :
  @Authorization.Validate ascii_model.imports
    (authorization "Bearer" (Some secret_ref) "/etc/token")
  = Some ConflictingCredentialsError.
Proof.
  apply (@Authorization_and_safe_part ascii_model.imports
           (authorization "Bearer" (Some secret_ref) "/etc/token"));
    [reflexivity | discriminate].
Defined.

(** ** ObjectReference *)

(** Distinct names of the table have distinct kinds. *)
Lemma resourceToKind_inj (n1 n2 kind : string) :
  resourceToKind !! n1 = Some kind → resourceToKind !! n2 = Some kind →
  n1 = n2.
Proof.
  rewrite !resourceToKind_entries. intros H1 H2.
  repeat (apply elem_of_cons in H1 as [[= -> ->]|H1]);
    try (by apply elem_of_nil in H1);
    repeat (apply elem_of_cons in H2 as [[= ->]|H2]);
    try (by apply elem_of_nil in H2); try reflexivity; try discriminate.
Qed.

(** No name of the table has the empty kind. *)
Lemma resourceToKind_kind_nonempty (name kind : string) :
  resourceToKind !! name = Some kind → kind ≠ "".
Proof.
  rewrite resourceToKind_entries. intros H.
  repeat (apply elem_of_cons in H as [[= -> ->]|H]); try discriminate.
  by apply elem_of_nil in H.
Qed.

(** X14. When the group constant of the package is not empty, the group
    [GroupResource] and [GroupKind] report is never empty: a reference
    with no group gets the constant, any other keeps its own. *)
Theorem getGroup_nonempty `{!GoImports} (obj : ObjectReference.t) :
  monitoring_GroupName ≠ "" →
  ObjectReference.getGroup obj ≠ ""
  ∧ schema.gr_Group (ObjectReference.GroupResource obj) ≠ ""
  ∧ (ObjectReference.Group obj = "" →
     ObjectReference.getGroup obj = monitoring_GroupName)
  ∧ (ObjectReference.Group obj ≠ "" →
     ObjectReference.getGroup obj = ObjectReference.Group obj).
Proof.
  unfold ObjectReference.GroupResource, ObjectReference.getGroup. simpl.
  intros Hname. case_decide; intuition congruence.
Qed.

Lemma getGroup_nonempty_sample :
  @ObjectReference.getGroup ascii_model.imports (object_reference "probes")
  ≠ "".
Proof.
  apply (@getGroup_nonempty ascii_model.imports (object_reference "probes")).
  discriminate.
Defined.

(** X15. Writing the defaulted group into the reference changes nothing:
    [GroupKind] and [GroupResource] give the same result on the reference
    and on the reference that carries its own [getGroup]. *)
Theorem getGroup_idempotent `{!GoImports} (obj : ObjectReference.t) :
  ObjectReference.getGroup (with_group obj (ObjectReference.getGroup obj))
  = ObjectReference.getGroup obj
  ∧ ObjectReference.GroupKind (with_group obj (ObjectReference.getGroup obj))
    = ObjectReference.GroupKind obj
  ∧ ObjectReference.GroupResource
      (with_group obj (ObjectReference.getGroup obj))
    = ObjectReference.GroupResource obj.
Proof.
  assert (ObjectReference.getGroup
            (with_group obj (ObjectReference.getGroup obj))
          = ObjectReference.getGroup obj) as Hget.
  { unfold ObjectReference.getGroup, with_group. simpl.
    repeat case_decide; congruence. }
  split; [exact Hget|].
  unfold ObjectReference.GroupKind, ObjectReference.GroupResource.
  rewrite Hget. split; reflexivity.
Qed.

Lemma getGroup_idempotent_sample :
  @ObjectReference.GroupKind ascii_model.imports
    (with_group (object_reference "probes") "monitoring.coreos.com")
  = @ObjectReference.GroupKind ascii_model.imports (object_reference "probes").
Proof.
  destruct (@getGroup_idempotent ascii_model.imports
              (object_reference "probes")) as (_ & H & _).
  exact H.
Defined.

(** X16. When [GroupKind] returns, its group is the one [GroupResource]
    reports, and its kind is the table's kind for the resource that
    [GroupResource] reports, never the empty string of a failed map
    index. *)
Theorem GroupKind_agrees_with_GroupResource `{!GoImports}
    (obj : ObjectReference.t) (gk : schema.GroupKind) :
  ObjectReference.GroupKind obj = Returns gk →
  schema.gk_Group gk = schema.gr_Group (ObjectReference.GroupResource obj)
  ∧ resourceToKind !! schema.gr_Resource (ObjectReference.GroupResource obj)
    = Some (schema.gk_Kind gk)
  ∧ schema.gk_Kind gk ≠ "".
Proof.
  unfold ObjectReference.GroupKind, ObjectReference.GroupResource,
    ObjectReference.index. simpl.
  destruct (resourceToKind !! ObjectReference.Resource obj) as [kind|] eqn:Hk;
    [|discriminate].
  intros [= <-]. simpl. split; [reflexivity|]. split; [reflexivity|].
  exact (resourceToKind_kind_nonempty _ _ Hk).
Qed.

Lemma GroupKind_agrees_with_GroupResource_sample :
  schema.gk_Group
    {| schema.gk_Group := "monitoring.coreos.com"; schema.gk_Kind := "Probe" |}
  = schema.gr_Group
      (@ObjectReference.GroupResource ascii_model.imports
         (object_reference "probes")).
Proof.
  apply (@GroupKind_agrees_with_GroupResource ascii_model.imports
           (object_reference "probes")).
  reflexivity.
Defined.

(** X17. Among the resource names the schema accepts, prometheusrules is
    the only one on which [GroupKind] panics: on servicemonitors,
    podmonitors and probes it returns. *)
Theorem GroupKind_on_schema_names `{!GoImports} (obj : ObjectReference.t) :
  ObjectReference.Resource obj ∈ ObjectReference.Resource_Enum →
  (ObjectReference.Resource obj = "prometheusrules" ↔
     ∃ v : string, ObjectReference.GroupKind obj = Panics v)
  ∧ (ObjectReference.Resource obj ≠ "prometheusrules" ↔
       ∃ gk : schema.GroupKind, ObjectReference.GroupKind obj = Returns gk).
Proof.
  intros Hin.
  assert (ObjectReference.Resource obj = "prometheusrules"
          ↔ resourceToKind !! ObjectReference.Resource obj = None) as Hnone.
  { unfold ObjectReference.Resource_Enum in Hin.
    apply elem_of_cons in Hin as [->|Hin]; [split; reflexivity|].
    apply elem_of_cons in Hin as [->|Hin]; [split; discriminate|].
    apply elem_of_cons in Hin as [->|Hin]; [split; discriminate|].
    apply elem_of_cons in Hin as [->|Hin]; [split; discriminate|].
    by apply elem_of_nil in Hin. }
  unfold ObjectReference.GroupKind. rewrite Hnone.
  destruct (resourceToKind !! ObjectReference.Resource obj) as [kind|].
  - split; split.
    + discriminate.
    + intros [v [=]].
    + intros _. eexists. reflexivity.
    + discriminate.
  - split; split.
    + intros _. eexists. reflexivity.
    + reflexivity.
    + intros Hne. contradiction.
    + intros [gk [=]].
Qed.

Lemma GroupKind_on_schema_names_sample :
  ∃ gk : schema.GroupKind,
    @ObjectReference.GroupKind ascii_model.imports
      (object_reference "podmonitors") = Returns gk.
Proof.
  apply (@GroupKind_on_schema_names ascii_model.imports
           (object_reference "podmonitors")).
  - right. right. left.
  - discriminate.
Defined.

(** X18. The result of [GroupKind] tells the reference apart: two
    references on which it returns the same group and kind have the same
    resource name and the same effective group. *)
Theorem GroupKind_injective `{!GoImports} (obj1 obj2 : ObjectReference.t)
    (gk : schema.GroupKind) :
  ObjectReference.GroupKind obj1 = Returns gk →
  ObjectReference.GroupKind obj2 = Returns gk →
  ObjectReference.Resource obj1 = ObjectReference.Resource obj2
  ∧ ObjectReference.GroupResource obj1 = ObjectReference.GroupResource obj2.
Proof.
  unfold ObjectReference.GroupKind, ObjectReference.GroupResource,
    ObjectReference.index.
  destruct (resourceToKind !! ObjectReference.Resource obj1) as [k1|] eqn:H1;
    [|discriminate].
  destruct (resourceToKind !! ObjectReference.Resource obj2) as [k2|] eqn:H2;
    [|discriminate].
  simpl. intros [= <-] [= Hg Hk]. subst k2.
  pose proof (resourceToKind_inj _ _ _ H1 H2) as Hres.
  split; [exact Hres|]. rewrite Hres, Hg. reflexivity.
Qed.

Lemma GroupKind_injective_sample :
  ObjectReference.Resource (object_reference "probes")
  = ObjectReference.Resource
      (with_group (object_reference "probes") "monitoring.coreos.com").
Proof.
  apply (@GroupKind_injective ascii_model.imports
           (object_reference "probes")
           (with_group (object_reference "probes") "monitoring.coreos.com")
           {| schema.gk_Group := "monitoring.coreos.com";
              schema.gk_Kind := "Probe" |});
    reflexivity.
Defined.
